(** * Library management system: book lifecycle handlers over a document store

    A shallow embedding of the handlers of the user and admin portals
    (IssuedBooksTab, BrowseBooksTab, DonateBookTab, IssueRequestsTab,
    ReturnRequestsTab, BookManagementTab, DonationApprovalTab) and of the
    status pill, together with the part of the document store and of the
    JavaScript runtime they rely on.

    Modelling decisions, all of them about the platform and not about the
    repository's code:
    - a document is a finite map from field names to values; a field that
      is missing, a field holding [null] and a field holding a map are three
      different things, as in the store;
    - a [Date] is its time value in milliseconds, or invalid; the local time
      zone is given by the two offsets the runtime uses, from an instant to
      local time and from a local time back to an instant, so that the
      offset may change from one day to another (daylight saving); the
      limited range of time values and the years 0 to 99 of the [Date]
      constructor are not modelled;
    - every call to the backend either commits or is rejected; which one is
      fixed by the environment of the handler's run;
    - the refresh of a tab's list after a handler (a read) and the text of
      a toast's description are left out. *)

From stdpp Require Import gmap strings list fin_maps.
From Stdlib Require Import ZArith Lia.

Set Warnings "-register-all".
Local Open Scope string_scope.
Local Open Scope Z_scope.

(** ** JavaScript values as the handlers see them *)

Module JS.

(** Values that occur in documents and in the objects handed to the store.
    [VIso ms] is the string [new Date(ms).toISOString()]; [VTimestamp ms] is
    a store timestamp object (the only value with a [toDate] method);
    [VServerTimestamp] is the sentinel returned by [serverTimestamp()]. *)
Inductive Value : Type :=
  | VNull
  | VNum (n : Z)
  | VStr (s : string)
  | VIso (ms : Z)
  | VTimestamp (ms : Z)
  | VServerTimestamp
  | VMap (m : gmap string Value).

(** A possibly [undefined] value: [None] is [undefined]. *)
Abbreviation JsVal := (option Value).

(** A document: the fields of one record. *)
Abbreviation Doc := (gmap string Value).

(** Truthiness, as used by [!x], [x && y], [x || y] and [x ? a : b]. *)
Definition truthy (v : JsVal) : bool :=
  match v with
  | None | Some VNull => false
  | Some (VNum n) => negb (n =? 0)
  | Some (VStr s) => negb (String.eqb s "")
  | Some _ => true
  end.

(** [a || b]. *)
Definition or_else (a : JsVal) (b : Value) : Value :=
  match a with
  | Some v => if truthy a then v else b
  | None => b
  end.

(** [o?.k] and, on a value already known to be truthy, [o.k]: the entry of
    a map, [undefined] on anything else. *)
Definition prop (o : JsVal) (k : string) : JsVal :=
  match o with
  | Some (VMap m) => m !! k
  | _ => None
  end.

(** [v === 'literal']. *)
Definition is_str (v : JsVal) (s : string) : bool :=
  match v with
  | Some (VStr s') => String.eqb s' s
  | _ => false
  end.

(** [s1 || s2 || 'dflt'] on the nullable strings of a user record. *)
Definition first_name (s1 s2 : option string) (dflt : string) : string :=
  match s1 with
  | Some a => if String.eqb a "" then
                match s2 with
                | Some b => if String.eqb b "" then dflt else b
                | None => dflt
                end
              else a
  | None => match s2 with
            | Some b => if String.eqb b "" then dflt else b
            | None => dflt
            end
  end.

(** *** Dates *)

(** A [Date] object: its time value, [None] when it is an invalid date. *)
Abbreviation JsDate := (option Z).

Definition msPerDay : Z := 1000 * 60 * 60 * 24.

(** [new Date(v)]. [parse] is [Date.parse] on strings that are not known to
    be ISO renderings. An object is converted through its primitive string,
    which is not a date-time string. *)
Definition newDate (parse : string → option Z) (v : JsVal) : JsDate :=
  match v with
  | None => None
  | Some VNull => Some 0
  | Some (VNum n) => Some n
  | Some (VStr s) => parse s
  | Some (VIso ms) => Some ms
  | Some (VTimestamp _) | Some VServerTimestamp | Some (VMap _) => None
  end.

(** [v.toDate ? v.toDate() : new Date(v)]. A map that carries an entry
    named [toDate] is not modelled apart from other maps. *)
Definition toDateOrNew (parse : string → option Z) (v : JsVal) : JsDate :=
  match v with
  | Some (VTimestamp ms) => Some ms
  | _ => newDate parse v
  end.

(** The local time zone of the runtime. [offsetAt t] is the offset of local
    time from UTC, in milliseconds, that is in force at the instant [t];
    [offsetOfLocal l] is the offset the runtime takes off the local time
    value [l] to get back to an instant (where a change of offset skips or
    repeats local times, the runtime settles which offset that is). *)
Record TimeZone := {
  offsetAt : Z → Z;
  offsetOfLocal : Z → Z;
}.

(** A zone whose offset never changes. *)
Definition fixedOffset (off : Z) : TimeZone :=
  {| offsetAt := λ _, off; offsetOfLocal := λ _, off |}.

(** The local time value of an instant, the one the getters of a [Date]
    read, and the instant of a local time value, the one its constructor
    and setters store. *)
Definition localTime (tz : TimeZone) (t : Z) : Z := t + offsetAt tz t.
Definition utcTime (tz : TimeZone) (l : Z) : Z := l - offsetOfLocal tz l.

(** The day number of a time value in local time. *)
Definition localDay (tz : TimeZone) (t : Z) : Z := localTime tz t / msPerDay.

(** [new Date(d.getFullYear(), d.getMonth(), d.getDate())], and also
    [d.setHours(0, 0, 0, 0)]: local midnight of the day of [d]. *)
Definition startOfDay (tz : TimeZone) (d : JsDate) : JsDate :=
  match d with
  | Some t => Some (utcTime tz (localDay tz t * msPerDay))
  | None => None
  end.

(** [r = new Date(d); r.setDate(d.getDate() + n)]: the local day moves by
    [n], the local time of day stays, and the result is the instant of
    that local time; it is [n] times twenty-four hours after [d] when the
    offset is the same at both ends, and an offset change away otherwise. *)
Definition addDays (tz : TimeZone) (d : JsDate) (n : Z) : JsDate :=
  match d with
  | Some t => Some (utcTime tz (localTime tz t + n * msPerDay))
  | None => None
  end.

(** [a < b] on dates: false as soon as one of them is invalid. *)
Definition dateLt (a b : JsDate) : bool :=
  match a, b with
  | Some x, Some y => x <? y
  | _, _ => false
  end.

(** [Math.ceil(diff / (1000 * 60 * 60 * 24))] for an integer [diff]. *)
Definition ceilDays (diff : Z) : Z := - ((- diff) / msPerDay).

(** [Math.ceil((a.getTime() - b.getTime()) / msPerDay)]; [None] is [NaN]. *)
Definition diffDays (a b : JsDate) : option Z :=
  match a, b with
  | Some x, Some y => Some (ceilDays (x - y))
  | _, _ => None
  end.

(** Comparisons with [NaN] are false. *)
Definition nanLt (d : option Z) (k : Z) : bool :=
  match d with Some x => x <? k | None => false end.
Definition nanLe (d : option Z) (k : Z) : bool :=
  match d with Some x => x <=? k | None => false end.
Definition nanGe (d : option Z) (k : Z) : bool :=
  match d with Some x => k <=? x | None => false end.

End JS.
Export JS.

(** ** Records of the application ([types]) *)

Inductive Role := admin | user.

Record User := {
  u_id : string;
  u_email : option string;
  u_role : Role;
  u_name : option string;
}.

(** A book as a tab holds it: [{ id: doc.id, ...doc.data() } as Book]. *)
Record Book := {
  b_id : string;
  b_data : Doc;
}.

Definition field (b : Book) (k : string) : JsVal := b_data b !! k.
Abbreviation status b := (field b "status").
Abbreviation issueDetails b := (field b "issueDetails").
Abbreviation donatedBy b := (field b "donatedBy").

Inductive TransactionType :=
  | issue | return_ | donate_request | donate_approve | donate_reject
  | fine_paid | renewal | issue_request | issue_reject
  | return_request | return_reject.

Global Instance TransactionType_eq_dec : EqDecision TransactionType.
Proof. solve_decision. Defined.

(** The argument of [logTransaction]: a transaction without [id] and
    [timestamp]. A field is [None] when the handler passes [undefined]
    ([bookTitle], [userId], [userName]) or leaves the key out ([dueDate],
    [notes]). [tx_dueDate] is the time value of the ISO string. *)
Record TransactionData := {
  tx_bookId : string;
  tx_bookTitle : JsVal;
  tx_userId : JsVal;
  tx_userName : JsVal;
  tx_type : TransactionType;
  tx_dueDate : option Z;
  tx_notes : option string;
}.

Record Transaction := {
  t_data : TransactionData;
  t_timestamp : Z;
}.

Definition sampleAdmin : User :=
  {| u_id := "admin001"; u_email := Some "admin@pes.edu";
     u_role := admin; u_name := Some "Library Admin" |}.

(** [sampleAdmin.name || 'Admin']. *)
Definition adminName : string := first_name (u_name sampleAdmin) None "Admin".

(** ** The document store and the user interface *)

Module Firestore.

(** What one run of a handler finds around it. [db] is false when the store
    handle is null. [now] is the client clock read by [new Date()],
    [serverTime] the time the backend substitutes for [serverTimestamp()],
    [tz] the local time zone of the browser. [booksWriteOk],
    [transactionsWriteOk] and [usersReadOk] tell whether the backend accepts
    the write to [books], the append to [transactions] and the read of
    [users] that the handler may issue. [ignoreUndefinedProperties] is the
    store setting of that name, chosen where the store handle is created
    ([lib/firebase]); [parse] is [Date.parse] and [localeDate] is
    [Date.prototype.toLocaleDateString] on a valid date. *)
Record Env := {
  db : bool;
  currentUser : option User;
  now : Z;
  serverTime : Z;
  tz : TimeZone;
  booksWriteOk : bool;
  transactionsWriteOk : bool;
  usersReadOk : bool;
  ignoreUndefinedProperties : bool;
  parse : string → option Z;
  localeDate : Z → string;
}.

Record Toast := {
  toast_title : string;
  toast_destructive : bool;
}.

(** A committed write, in the order the backend committed it. *)
Inductive Write :=
  | BookUpdated (id : string)
  | BookDeleted (id : string)
  | BookAdded (id : string)
  | TransactionAdded (t : Transaction).

(** The three collections, the journal of committed writes (oldest first),
    and what the user interface has shown: toasts and console errors
    (oldest first). *)
Record World := {
  books : gmap string Doc;
  users : gmap string Doc;
  transactions : list Transaction;
  journal : list Write;
  toasts : list Toast;
  console : list string;
}.

Definition with_books (w : World) (bs : gmap string Doc) (ev : Write) : World :=
  {| books := bs; users := users w; transactions := transactions w;
     journal := journal w ++ [ev]; toasts := toasts w; console := console w |}.

Definition with_transaction (w : World) (t : Transaction) : World :=
  {| books := books w; users := users w;
     transactions := transactions w ++ [t];
     journal := journal w ++ [TransactionAdded t];
     toasts := toasts w; console := console w |}.

Definition with_toast (w : World) (t : Toast) : World :=
  {| books := books w; users := users w; transactions := transactions w;
     journal := journal w; toasts := toasts w ++ [t]; console := console w |}.

Definition with_console (w : World) (s : string) : World :=
  {| books := books w; users := users w; transactions := transactions w;
     journal := journal w; toasts := toasts w; console := console w ++ [s] |}.

(** *** Handlers as state transformers that may throw *)

Inductive Completion (A : Type) : Type :=
  | Normal (a : A)
  | Thrown (e : string).
Arguments Normal {A} a.
Arguments Thrown {A} e.

Definition M (A : Type) : Type := World → Completion A * World.

Global Instance M_ret : MRet M := λ A a w, (Normal a, w).

Global Instance M_bind : MBind M := λ A B f m w,
  match m w with
  | (Normal a, w') => f a w'
  | (Thrown e, w') => (Thrown e, w')
  end.

Definition throw {A} (e : string) : M A := λ w, (Thrown e, w).

(** [try { body } catch (error) { handler }]. *)
Definition try_catch {A} (body : M A) (handler : string → M A) : M A := λ w,
  match body w with
  | (Normal a, w') => (Normal a, w')
  | (Thrown e, w') => handler e w'
  end.

Definition toast (title : string) (destructive : bool) : M unit := λ w,
  (Normal (), with_toast w {| toast_title := title; toast_destructive := destructive |}).

Definition console_error (msg : string) : M unit := λ w,
  (Normal (), with_console w msg).

(** The world a handler leaves behind. *)
Definition exec {A} (m : M A) (w : World) : World := snd (m w).

(** *** Writes *)

(** The sentinel [serverTimestamp()] becomes the server's time when the
    write commits, at any depth of the written value. *)
Fixpoint resolve (t : Z) (v : Value) : Value :=
  match v with
  | VServerTimestamp => VTimestamp t
  | VMap m => VMap (resolve t <$> m)
  | _ => v
  end.

Inductive FieldUpdate :=
  | SetField (v : Value)
  | DeleteField.

(** A field name, or a dotted path ["k1.k2"] into a nested map. *)
Inductive FieldPath :=
  | Field (k : string)
  | Nested (k1 k2 : string).

(** One entry of the object given to [updateDoc]. A dotted path writes one
    entry of the nested map and keeps its other entries; when the parent is
    not a map, it becomes a map holding that entry only. *)
Definition applyUpdate (t : Z) (d : Doc) (u : FieldPath * FieldUpdate) : Doc :=
  match u with
  | (Field k, SetField v) => <[k := resolve t v]> d
  | (Field k, DeleteField) => delete k d
  | (Nested k1 k2, SetField v) =>
      let parent := match d !! k1 with Some (VMap m) => m | _ => ∅ end in
      <[k1 := VMap (<[k2 := resolve t v]> parent)]> d
  | (Nested k1 k2, DeleteField) =>
      match d !! k1 with
      | Some (VMap m) => <[k1 := VMap (delete k2 m)]> d
      | _ => d
      end
  end.

(** [updateDoc(doc(db, "books", id), patch)]: rejected when the backend
    refuses the write or when the document does not exist. *)
Definition updateDoc (env : Env) (id : string)
    (patch : list (FieldPath * FieldUpdate)) : M unit := λ w,
  if booksWriteOk env then
    match books w !! id with
    | Some d =>
        (Normal (),
         with_books w (<[id := foldl (applyUpdate (serverTime env)) d patch]> (books w))
                    (BookUpdated id))
    | None => (Thrown "not-found", w)
    end
  else (Thrown "unavailable", w).

(** [deleteDoc(doc(db, "books", id))]: deleting a missing document is not
    an error. *)
Definition deleteDoc (env : Env) (id : string) : M unit := λ w,
  if booksWriteOk env then
    (Normal (), with_books w (delete id (books w)) (BookDeleted id))
  else (Thrown "unavailable", w).

(** [addDoc(collection(db, "books"), data)]: the new document gets an
    identifier that no document of the collection has. *)
Definition addBook (env : Env) (data : Doc) : M string := λ w,
  if booksWriteOk env then
    let id := fresh (dom (books w)) in
    (Normal id,
     with_books w (<[id := resolve (serverTime env) <$> data]> (books w)) (BookAdded id))
  else (Thrown "unavailable", w).

(** [getDoc(doc(db, "users", id))]; [None] when [exists()] is false. *)
Definition getUser (env : Env) (id : string) : M (option Doc) := λ w,
  if usersReadOk env then (Normal (users w !! id), w)
  else (Thrown "unavailable", w).

Definition has_undefined (d : TransactionData) : bool :=
  match tx_bookTitle d, tx_userId d, tx_userName d with
  | Some _, Some _, Some _ => false
  | _, _, _ => true
  end.

(** [addDoc(collection(db, "transactions"), { ...data, timestamp:
    serverTimestamp() })]. An [undefined] field is refused unless the store
    was set up to ignore such fields, in which case it is left out. *)
Definition addTransaction (env : Env) (d : TransactionData) : M unit := λ w,
  if has_undefined d && negb (ignoreUndefinedProperties env) then
    (Thrown "invalid-argument", w)
  else if transactionsWriteOk env then
    (Normal (), with_transaction w {| t_data := d; t_timestamp := serverTime env |})
  else (Thrown "unavailable", w).

(** [logTransaction], the helper every tab declares with the same body: the
    append is attempted once and its failure only reaches the console. *)
Definition logTransaction (env : Env) (d : TransactionData) : M unit :=
  if db env then
    try_catch (addTransaction env d)
              (λ _, console_error "Error logging transaction:")
  else mret ().

(** [date.toISOString()]: a [RangeError] on an invalid date. *)
Definition toISOString (d : JsDate) : M Z :=
  match d with
  | Some t => mret t
  | None => throw "RangeError: Invalid time value"
  end.

(** [date.toLocaleDateString()]. *)
Definition toLocaleDateString (env : Env) (d : JsDate) : string :=
  match d with
  | Some t => localeDate env t
  | None => "Invalid Date"
  end.

End Firestore.
Export Firestore.

(** ** components/shared/StatusPill *)

Module StatusPill.

(** The first half of [getStatusDetails]: the variant the pill is drawn for
    (the second half is a [switch] from the variant to a label and colours).
    A variant is the string it is named by; a book whose status is none of
    the compared ones keeps its status as variant. *)
Definition getStatusVariant (env : Env) (book : Book) : JsVal :=
  if is_str (status book) "issued" && truthy (issueDetails book) then
    let dueDate := newDate (parse env) (prop (issueDetails book) "dueDate") in
    let diffDays := diffDays dueDate (Some (now env)) in
    if nanLt diffDays 0 then Some (VStr "overdue")
    else if nanLe diffDays 3 then Some (VStr "due_soon")
    else Some (VStr "issued")
  else if is_str (status book) "donated_pending_approval" then
    Some (VStr "pending_approval")
  else if is_str (status book) "donated_approved" then
    Some (VStr "available")
  else if is_str (status book) "issue_requested" then
    Some (VStr "issue_requested")
  else status book.

End StatusPill.

(** ** components/user/IssuedBooksTab *)

Module IssuedBooksTab.

Definition RENEWAL_PERIOD_DAYS : Z := 7.

Definition isBookOverdue (env : Env) (book : Book) : bool :=
  if is_str (status book) "issued"
     && truthy (prop (issueDetails book) "dueDate") then
    let dueDate := toDateOrNew (parse env) (prop (issueDetails book) "dueDate") in
    let now := Some (now env) in
    let dueDateNormalized := startOfDay (tz env) dueDate in
    let nowNormalized := startOfDay (tz env) now in
    dateLt dueDateNormalized nowNormalized
  else false.

(** The part of [handleRenewBook] inside [try]. *)
Definition renew (env : Env) (u : User) (bookId bookTitle : string)
    (currentDueDate newDueDate : JsDate) : M unit :=
  updateDoc env bookId [(Nested "issueDetails" "dueDate", SetField VServerTimestamp)];;
  iso ← toISOString newDueDate;
  logTransaction env
    {| tx_bookId := bookId;
       tx_bookTitle := Some (VStr bookTitle);
       tx_userId := Some (VStr (u_id u));
       tx_userName := Some (VStr (first_name (u_name u) (u_email u) "User"));
       tx_type := renewal;
       tx_dueDate := Some iso;
       tx_notes := Some ("Renewed from " +:+ toLocaleDateString env currentDueDate
                         +:+ " to " +:+ toLocaleDateString env newDueDate) |};;
  toast "Book Renewed" false.

(** [userBooks] is the list the tab last fetched. *)
Definition handleRenewBook (env : Env) (userBooks : list Book)
    (bookId bookTitle : string) : M unit :=
  match currentUser env, db env with
  | Some u, true =>
      match List.find (λ b, String.eqb (b_id b) bookId) userBooks with
      | Some bookToRenew =>
          if truthy (prop (issueDetails bookToRenew) "dueDate") then
            if isBookOverdue env bookToRenew then
              toast "Renewal Not Allowed" true
            else
              let currentDueDate :=
                toDateOrNew (parse env) (prop (issueDetails bookToRenew) "dueDate") in
              let newDueDate := addDays (tz env) currentDueDate RENEWAL_PERIOD_DAYS in
              try_catch (renew env u bookId bookTitle currentDueDate newDueDate)
                (λ _, console_error "Error renewing book:";;
                      toast "Renewal Failed" true)
          else toast "Renewal Failed" true
      | None => toast "Renewal Failed" true
      end
  | _, _ => toast "Error" true
  end.

Definition handleRequestReturn (env : Env) (bookId bookTitle : string) : M unit :=
  match currentUser env, db env with
  | Some u, true =>
      try_catch
        (updateDoc env bookId [(Field "status", SetField (VStr "return_requested"))];;
         logTransaction env
           {| tx_bookId := bookId;
              tx_bookTitle := Some (VStr bookTitle);
              tx_userId := Some (VStr (u_id u));
              tx_userName := Some (VStr (first_name (u_name u) (u_email u) "User"));
              tx_type := return_request;
              tx_dueDate := None;
              tx_notes := Some ("User requested to return '" +:+ bookTitle +:+ "'") |};;
         toast "Return Requested" false)
        (λ _, console_error "Error requesting book return:";;
              toast "Request Failed" true)
  | _, _ => toast "Error" true
  end.

Inductive Filter := f_all | f_due_soon | f_overdue | f_return_requested.

(** The predicate of [filteredAndSortedBooks]; [matchesSearch] is the
    outcome of the text search on title and author. *)
Definition filterBook (env : Env) (matchesSearch : bool) (filter : Filter)
    (book : Book) : bool :=
  if negb matchesSearch then false
  else match filter with
  | f_all => true
  | f_return_requested => is_str (status book) "return_requested"
  | _ =>
      if negb (truthy (prop (issueDetails book) "dueDate")) then false
      else
        let dueDate := toDateOrNew (parse env) (prop (issueDetails book) "dueDate") in
        let today := startOfDay (tz env) (Some (now env)) in
        let normalizedDueDate := startOfDay (tz env) dueDate in
        let diffDays := diffDays normalizedDueDate today in
        match filter with
        | f_overdue => nanLt diffDays 0
        | f_due_soon => nanGe diffDays 0 && nanLe diffDays 3
        | _ => true
        end
  end.

End IssuedBooksTab.

(** ** components/user/BrowseBooksTab *)

Module BrowseBooksTab.

Definition handleRequestIssue (env : Env) (bookId bookTitle : string) : M unit :=
  match currentUser env with
  | None => toast "Login Required" true
  | Some u =>
      if negb (db env) then toast "Error" true
      else
        let requestDetails : Doc :=
          {[ "userId" := VStr (u_id u);
             "userName" := VStr (first_name (u_name u) (u_email u) "User");
             "issueDate" := VServerTimestamp;
             "dueDate" := VNull ]} in
        try_catch
          (updateDoc env bookId
             [(Field "status", SetField (VStr "issue_requested"));
              (Field "issueDetails", SetField (VMap requestDetails))];;
           logTransaction env
             {| tx_bookId := bookId;
                tx_bookTitle := Some (VStr bookTitle);
                tx_userId := Some (VStr (u_id u));
                tx_userName := Some (VStr (first_name (u_name u) (u_email u) "User"));
                tx_type := issue_request;
                tx_dueDate := None;
                tx_notes := None |};;
           toast "Request Sent!" false)
          (λ _, console_error "Error requesting book issue:";;
                toast "Error Sending Request" true)
  end.

(** The [disabled] attribute of the "Request to Issue" button. *)
Definition requestDisabled (env : Env) (book : Book) : bool :=
  match currentUser env with
  | None => true
  | Some _ => negb (is_str (status book) "available")
              && negb (is_str (status book) "donated_approved")
  end.

End BrowseBooksTab.

(** ** components/user/DonateBookTab *)

Module DonateBookTab.

(** The state of the donation form. *)
Record Form := {
  title : string;
  author : string;
  isbn : string;
  category : string;
  publishedDate : string;
  description : string;
  coverImageUrl : string;
}.

(** [encodeURIComponent] is taken as given. *)
Definition handleSubmit (env : Env) (encodeURIComponent : string → string)
    (f : Form) : M unit :=
  match currentUser env with
  | None => toast "Login Required" true
  | Some u =>
      if negb (db env) then toast "Error" true
      else
        let donor : Doc :=
          {[ "userId" := VStr (u_id u);
             "userName" := VStr (first_name (u_name u) (u_email u) "Anonymous User");
             "date" := VServerTimestamp ]} in
        let cover :=
          if String.eqb (coverImageUrl f) "" then
            "https://placehold.co/300x450.png?text=" +:+ encodeURIComponent (title f)
          else coverImageUrl f in
        let newBookData : Doc :=
          {[ "title" := VStr (title f);
             "author" := VStr (author f);
             "isbn" := VStr (isbn f);
             "category" := VStr (category f);
             "publishedDate" := VStr (publishedDate f);
             "description" := VStr (description f);
             "coverImageUrl" := VStr cover;
             "status" := VStr "donated_pending_approval";
             "donatedBy" := VMap donor ]} in
        try_catch
          (docRef ← addBook env newBookData;
           logTransaction env
             {| tx_bookId := docRef;
                tx_bookTitle := Some (VStr (title f));
                tx_userId := Some (VStr (u_id u));
                tx_userName :=
                  Some (VStr (first_name (u_name u) (u_email u) "Anonymous User"));
                tx_type := donate_request;
                tx_dueDate := None;
                tx_notes := Some ("User submitted donation for '" +:+ title f +:+ "'") |};;
           toast "Donation Submitted" false)
          (λ _, console_error "Donation submission error:";;
                toast "Submission Failed" true)
  end.

End DonateBookTab.

(** ** The admin tab of issue requests *)

Module IssueRequestsTab.

(** The part of [handleApproveRequest] inside [try]. *)
Definition approve (env : Env) (book : Book) (dueDate : JsDate) : M unit :=
  iso ← toISOString dueDate;
  updateDoc env (b_id book)
    [(Field "status", SetField (VStr "issued"));
     (Nested "issueDetails" "dueDate", SetField (VIso iso))];;
  logTransaction env
    {| tx_bookId := b_id book;
       tx_bookTitle := field book "title";
       tx_userId := prop (issueDetails book) "userId";
       tx_userName := prop (issueDetails book) "userName";
       tx_type := issue;
       tx_dueDate := Some iso;
       tx_notes := Some ("Request approved by Admin: " +:+ adminName) |};;
  toast "Request Approved" false.

(** [book.issueDetails.issueDate.toDate()] is evaluated before [try]: when
    the issue date is not a timestamp object the handler ends with an
    uncaught [TypeError]. *)
Definition handleApproveRequest (env : Env) (book : Book) : M unit :=
  if negb (db env) || negb (truthy (issueDetails book)) then toast "Error" true
  else
    match prop (issueDetails book) "issueDate" with
    | Some (VTimestamp ms) =>
        let issueDate : JsDate := Some ms in
        let dueDate := addDays (tz env) issueDate 14 in
        try_catch (approve env book dueDate)
          (λ _, console_error "Error approving request:";;
                toast "Error Approving Request" true)
    | _ => throw "TypeError"
    end.

Definition handleRejectRequest (env : Env) (book : Book) : M unit :=
  if negb (db env) || negb (truthy (issueDetails book)) then toast "Error" true
  else
    try_catch
      (updateDoc env (b_id book)
         [(Field "status", SetField (VStr "available"));
          (Field "issueDetails", SetField VNull)];;
       logTransaction env
         {| tx_bookId := b_id book;
            tx_bookTitle := field book "title";
            tx_userId := prop (issueDetails book) "userId";
            tx_userName := prop (issueDetails book) "userName";
            tx_type := issue_reject;
            tx_dueDate := None;
            tx_notes := Some ("Request rejected by Admin: " +:+ adminName) |};;
       toast "Request Rejected" false)
      (λ _, console_error "Error rejecting request:";;
            toast "Error Rejecting Request" true).

End IssueRequestsTab.

(** ** components/admin/ReturnRequestsTab *)

Module ReturnRequestsTab.

Definition handleApproveReturn (env : Env) (book : Book) : M unit :=
  if negb (db env) || negb (truthy (issueDetails book)) then toast "Error" true
  else
    try_catch
      (updateDoc env (b_id book)
         [(Field "status", SetField (VStr "available"));
          (Field "issueDetails", DeleteField)];;
       logTransaction env
         {| tx_bookId := b_id book;
            tx_bookTitle := field book "title";
            tx_userId := prop (issueDetails book) "userId";
            tx_userName := prop (issueDetails book) "userName";
            tx_type := return_;
            tx_dueDate := None;
            tx_notes := Some ("Return approved by Admin: " +:+ adminName) |};;
       toast "Return Approved" false)
      (λ _, console_error "Error approving return:";;
            toast "Error Approving Return" true).

Definition handleRejectReturn (env : Env) (book : Book) : M unit :=
  if negb (db env) || negb (truthy (issueDetails book)) then toast "Error" true
  else
    try_catch
      (updateDoc env (b_id book) [(Field "status", SetField (VStr "issued"))];;
       logTransaction env
         {| tx_bookId := b_id book;
            tx_bookTitle := field book "title";
            tx_userId := prop (issueDetails book) "userId";
            tx_userName := prop (issueDetails book) "userName";
            tx_type := return_reject;
            tx_dueDate := None;
            tx_notes := Some ("Return request rejected by Admin: " +:+ adminName) |};;
       toast "Return Rejected" false)
      (λ _, console_error "Error rejecting return:";;
            toast "Error Rejecting Return" true).

End ReturnRequestsTab.

(** ** components/admin/BookManagementTab, second part: donation approval *)

Module DonationApprovalTab.

Definition handleApproveDonation (env : Env) (book : Book) : M unit :=
  if negb (db env) then toast "Error" true
  else
    try_catch
      (updateDoc env (b_id book) [(Field "status", SetField (VStr "available"))];;
       logTransaction env
         {| tx_bookId := b_id book;
            tx_bookTitle := field book "title";
            tx_userId := Some (or_else (prop (donatedBy book) "userId") (VStr "unknown_donor"));
            tx_userName := Some (or_else (prop (donatedBy book) "userName") (VStr "Unknown Donor"));
            tx_type := donate_approve;
            tx_dueDate := None;
            tx_notes := Some ("Donation approved by Admin: " +:+ adminName) |};;
       toast "Donation Approved" false)
      (λ _, console_error "Error approving donation:";;
            toast "Error Approving Donation" true).

Definition handleRejectDonation (env : Env) (book : Book) : M unit :=
  if negb (db env) then toast "Error" true
  else
    try_catch
      (deleteDoc env (b_id book);;
       logTransaction env
         {| tx_bookId := b_id book;
            tx_bookTitle := field book "title";
            tx_userId := Some (or_else (prop (donatedBy book) "userId") (VStr "unknown_donor"));
            tx_userName := Some (or_else (prop (donatedBy book) "userName") (VStr "Unknown Donor"));
            tx_type := donate_reject;
            tx_dueDate := None;
            tx_notes := Some ("Donation rejected by Admin: " +:+ adminName) |};;
       toast "Donation Rejected" false)
      (λ _, console_error "Error rejecting donation:";;
            toast "Error Rejecting Donation" true).

End DonationApprovalTab.

(** ** components/admin/BookManagementTab, first part: the catalogue *)

Module BookManagementTab.

(** [updateDoc(bookRef, dataToUpdate)] with the object of an edit form:
    every entry of the object replaces the field of that name (the field
    names of a book carry no dot), the other fields stay. *)
Definition updateDocData (env : Env) (id : string) (data : Doc) : M unit := λ w,
  if booksWriteOk env then
    match books w !! id with
    | Some d =>
        (Normal (),
         with_books w (<[id := (resolve (serverTime env) <$> data) ∪ d]> (books w))
                    (BookUpdated id))
    | None => (Thrown "not-found", w)
    end
  else (Thrown "unavailable", w).

(** [bookData] is the object the book form hands over. *)
Definition handleSaveBook (env : Env) (bookData : Doc) : M unit :=
  if negb (db env) then toast "Error" true
  else
    try_catch
      (if truthy (bookData !! "id") then
         match bookData !! "id" with
         | Some (VStr id) =>
             let dataToUpdate := delete "id" bookData in
             updateDocData env id dataToUpdate;;
             toast "Book Updated" false
         | _ => throw "invalid-argument"
         end
       else
         let newBookData := delete "donatedBy" (delete "issueDetails" bookData) in
         addBook env newBookData;;
         toast "Book Added" false)
      (λ _, console_error "Error saving book:";;
            toast "Error Saving Book" true).

Definition handleDeleteBook (env : Env) (bookId bookTitle : string) : M unit :=
  if negb (db env) then toast "Error" true
  else
    try_catch
      (deleteDoc env bookId;;
       toast "Book Deleted" false)
      (λ _, console_error "Error deleting book:";;
            toast "Error Deleting Book" true).

(** The look-up of the borrower's name in [handleConfirmIssueBook]. *)
Definition resolveUserName (env : Env) (issueToUserId issueToUserName : string)
    : M Value :=
  let finalUserName := or_else (Some (VStr issueToUserName)) (VStr "Unknown User") in
  if negb (truthy (Some (VStr issueToUserName))) && truthy (Some (VStr issueToUserId)) then
    try_catch
      (userDocSnap ← getUser env issueToUserId;
       match userDocSnap with
       | Some data =>
           mret (or_else (data !! "name") (or_else (data !! "email") (VStr "User")))
       | None =>
           toast "Warning" false;;
           mret finalUserName
       end)
      (λ _, console_error "Error fetching user details:";;
            toast "Warning" false;;
            mret finalUserName)
  else mret finalUserName.

(** [issuingBook], [issueToUserId] and [issueToUserName] are the state of
    the issue dialog. *)
Definition handleConfirmIssueBook (env : Env) (issuingBook : option Book)
    (issueToUserId issueToUserName : string) : M unit :=
  match issuingBook with
  | Some book =>
      if negb (db env) || negb (truthy (Some (VStr issueToUserId))) then
        toast "Error" true
      else
        finalUserName ← resolveUserName env issueToUserId issueToUserName;
        let issueDate : JsDate := Some (now env) in
        let dueDate := addDays (tz env) issueDate 14 in
        iso ← toISOString dueDate;
        let issueDetails : Doc :=
          {[ "userId" := VStr issueToUserId;
             "userName" := finalUserName;
             "issueDate" := VServerTimestamp;
             "dueDate" := VIso iso ]} in
        try_catch
          (updateDoc env (b_id book)
             [(Field "status", SetField (VStr "issued"));
              (Field "issueDetails", SetField (VMap issueDetails))];;
           logTransaction env
             {| tx_bookId := b_id book;
                tx_bookTitle := field book "title";
                tx_userId := Some (VStr issueToUserId);
                tx_userName := Some finalUserName;
                tx_type := issue;
                tx_dueDate := Some iso;
                tx_notes := Some ("Issued by Admin: " +:+ adminName) |};;
           toast "Book Issued" false)
          (λ _, console_error "Error issuing book:";;
                toast "Error Issuing Book" true)
  | None => toast "Error" true
  end.

Definition handleReturnBook (env : Env) (book : Book) : M unit :=
  if negb (db env) then toast "Error" true
  else
    try_catch
      (updateDoc env (b_id book)
         [(Field "status", SetField (VStr "available"));
          (Field "issueDetails", DeleteField)];;
       logTransaction env
         {| tx_bookId := b_id book;
            tx_bookTitle := field book "title";
            tx_userId := Some (or_else (prop (issueDetails book) "userId")
                                       (VStr "unknown_user_return"));
            tx_userName := Some (or_else (prop (issueDetails book) "userName")
                                         (VStr "Unknown User"));
            tx_type := return_;
            tx_dueDate := None;
            tx_notes := Some ("Returned to Admin: " +:+ adminName) |};;
       toast "Book Returned" false)
      (λ _, console_error "Error returning book:";;
            toast "Error Returning Book" true).

End BookManagementTab.

(** ** Every handler that writes to the store *)

Inductive Action :=
  | RequestIssue (bookId bookTitle : string)
  | RenewBook (userBooks : list Book) (bookId bookTitle : string)
  | RequestReturn (bookId bookTitle : string)
  | Donate (encodeURIComponent : string → string) (f : DonateBookTab.Form)
  | ApproveRequest (book : Book)
  | RejectRequest (book : Book)
  | ApproveReturn (book : Book)
  | RejectReturn (book : Book)
  | ApproveDonation (book : Book)
  | RejectDonation (book : Book)
  | ConfirmIssueBook (issuingBook : option Book) (issueToUserId issueToUserName : string)
  | ReturnBook (book : Book)
  | SaveBook (bookData : Doc)
  | DeleteBook (bookId bookTitle : string).

Definition handler (env : Env) (a : Action) : M unit :=
  match a with
  | RequestIssue i t => BrowseBooksTab.handleRequestIssue env i t
  | RenewBook bs i t => IssuedBooksTab.handleRenewBook env bs i t
  | RequestReturn i t => IssuedBooksTab.handleRequestReturn env i t
  | Donate enc f => DonateBookTab.handleSubmit env enc f
  | ApproveRequest b => IssueRequestsTab.handleApproveRequest env b
  | RejectRequest b => IssueRequestsTab.handleRejectRequest env b
  | ApproveReturn b => ReturnRequestsTab.handleApproveReturn env b
  | RejectReturn b => ReturnRequestsTab.handleRejectReturn env b
  | ApproveDonation b => DonationApprovalTab.handleApproveDonation env b
  | RejectDonation b => DonationApprovalTab.handleRejectDonation env b
  | ConfirmIssueBook b i n => BookManagementTab.handleConfirmIssueBook env b i n
  | ReturnBook b => BookManagementTab.handleReturnBook env b
  | SaveBook d => BookManagementTab.handleSaveBook env d
  | DeleteBook i t => BookManagementTab.handleDeleteBook env i t
  end.

(** The snapshot a tab holds of a stored document. *)
Definition snapshot (id : string) (d : Doc) : Book := {| b_id := id; b_data := d |}.

(** * Properties *)

(** ** Concrete books, users and environments used in the examples *)

Module Fixtures.

Definition day : Z := msPerDay.

Definition alice : User :=
  {| u_id := "u1"; u_email := Some "alice@pes.edu"; u_role := user;
     u_name := Some "Alice" |}.

(** An environment in UTC in which every backend call commits. *)
Definition env_at (clock : Z) : Env :=
  {| db := true; currentUser := Some alice; now := clock; serverTime := clock;
     tz := fixedOffset 0; booksWriteOk := true; transactionsWriteOk := true;
     usersReadOk := true; ignoreUndefinedProperties := false;
     parse := λ _, None; localeDate := λ _, "a date" |}.

(** An hour, and the zone of New York around the tenth of March 2024 (day
    19792 of the epoch): five hours behind UTC until 07:00 UTC of that
    day, four hours behind from then on; the local hour from 02:00 to
    03:00 that the change skips is read with the earlier offset. *)
Definition hour : Z := 3600000.

Definition newYork2024 : TimeZone :=
  {| offsetAt := λ t, if t <? 19792 * day + 7 * hour then - 5 * hour else - 4 * hour;
     offsetOfLocal := λ l, if l <? 19792 * day + 3 * hour then - 5 * hour else - 4 * hour |}.

(** The environment [env_at clock] moved to that zone. *)
Definition env_in_newYork (clock : Z) : Env :=
  {| db := true; currentUser := Some alice; now := clock; serverTime := clock;
     tz := newYork2024; booksWriteOk := true; transactionsWriteOk := true;
     usersReadOk := true; ignoreUndefinedProperties := false;
     parse := λ _, None; localeDate := λ _, "a date" |}.

(** Book [B1], requested by Alice at [requested], and the same book once
    issued with due date [due]. *)
Definition requested_doc (requested : Z) : Doc :=
  {[ "title" := VStr "SICP"; "author" := VStr "Abelson"; "isbn" := VStr "0262510871";
     "status" := VStr "issue_requested";
     "issueDetails" := VMap {[ "userId" := VStr "u1"; "userName" := VStr "Alice";
                               "issueDate" := VTimestamp requested;
                               "dueDate" := VNull ]} ]}.

Definition issued_doc (requested due : Z) : Doc :=
  {[ "title" := VStr "SICP"; "author" := VStr "Abelson"; "isbn" := VStr "0262510871";
     "status" := VStr "issued";
     "issueDetails" := VMap {[ "userId" := VStr "u1"; "userName" := VStr "Alice";
                               "issueDate" := VTimestamp requested;
                               "dueDate" := VIso due ]} ]}.

Definition pending_doc : Doc :=
  {[ "title" := VStr "TAPL"; "author" := VStr "Pierce"; "isbn" := VStr "0262162091";
     "status" := VStr "donated_pending_approval";
     "donatedBy" := VMap {[ "userId" := VStr "u1"; "userName" := VStr "Alice";
                            "date" := VTimestamp 0 ]} ]}.

Definition world_with (id : string) (d : Doc) : World :=
  {| books := {[ id := d ]}; users := ∅; transactions := []; journal := [];
     toasts := []; console := [] |}.

End Fixtures.
Import Fixtures.

(** ** Vocabulary of the statements *)

(** The same environment with another answer of the backend to the write
    to [books], respectively to the append to [transactions]. *)
Definition set_booksWriteOk (ok : bool) (env : Env) : Env :=
  {| db := db env; currentUser := currentUser env; now := now env;
     serverTime := serverTime env; tz := tz env; booksWriteOk := ok;
     transactionsWriteOk := transactionsWriteOk env;
     usersReadOk := usersReadOk env;
     ignoreUndefinedProperties := ignoreUndefinedProperties env;
     parse := parse env; localeDate := localeDate env |}.

Definition set_transactionsWriteOk (ok : bool) (env : Env) : Env :=
  {| db := db env; currentUser := currentUser env; now := now env;
     serverTime := serverTime env; tz := tz env; booksWriteOk := booksWriteOk env;
     transactionsWriteOk := ok;
     usersReadOk := usersReadOk env;
     ignoreUndefinedProperties := ignoreUndefinedProperties env;
     parse := parse env; localeDate := localeDate env |}.

(** Field [k] of the stored book [id]. *)
Definition stored (w : World) (id k : string) : JsVal :=
  books w !! id ≫= λ d, d !! k.

(** The due date inside the stored [issueDetails] of book [id]. *)
Definition storedDueDate (w : World) (id : string) : JsVal :=
  prop (stored w id "issueDetails") "dueDate".

(** Whether [logTransaction] gets its entry committed. *)
Definition logged (env : Env) (d : TransactionData) : bool :=
  db env
  && negb (has_undefined d && negb (ignoreUndefinedProperties env))
  && transactionsWriteOk env.

(** The classification of a due date as the specification words it: both
    instants are reduced to their local calendar day, then compared. *)
Inductive Classification := c_overdue | c_due_soon | c_issued.

Definition classifyByDay (tz : TimeZone) (due now : Z) : Classification :=
  if localDay tz due <? localDay tz now then c_overdue
  else if localDay tz due - localDay tz now <=? 3 then c_due_soon
  else c_issued.

(** The log entry [handleRejectReturn] builds for a book. *)
Definition returnRejectEntry (book : Book) : TransactionData :=
  {| tx_bookId := b_id book;
     tx_bookTitle := field book "title";
     tx_userId := prop (issueDetails book) "userId";
     tx_userName := prop (issueDetails book) "userName";
     tx_type := return_reject;
     tx_dueDate := None;
     tx_notes := Some ("Return request rejected by Admin: " +:+ adminName) |}.

(** The values [handleRequestIssue] leaves in [issueDetails], once the
    server has put its time in place of the sentinel. *)
Definition requestDetails (env : Env) (u : User) : Doc :=
  {[ "userId" := VStr (u_id u);
     "userName" := VStr (first_name (u_name u) (u_email u) "User");
     "issueDate" := VTimestamp (serverTime env);
     "dueDate" := VNull ]}.

(** The log entry [handleRequestIssue] builds. *)
Definition issueRequestEntry (u : User) (bookId bookTitle : string) : TransactionData :=
  {| tx_bookId := bookId;
     tx_bookTitle := Some (VStr bookTitle);
     tx_userId := Some (VStr (u_id u));
     tx_userName := Some (VStr (first_name (u_name u) (u_email u) "User"));
     tx_type := issue_request;
     tx_dueDate := None;
     tx_notes := None |}.



Definition isBookWrite (ev : Write) : Prop :=
  match ev with
  | TransactionAdded _ => False
  | _ => True
  end.

(** What one run of a handler adds to the journal: nothing, one write to
    [books], or one write to [books] followed by one log entry. *)
Definition journalStep (w w' : World) : Prop :=
  (journal w' = journal w ∧ books w' = books w ∧ transactions w' = transactions w)
  ∨ ∃ ev, isBookWrite ev
      ∧ ((journal w' = (journal w ++ [ev])%list ∧ transactions w' = transactions w)
         ∨ ∃ t, journal w' = (journal w ++ [ev; TransactionAdded t])%list
                ∧ transactions w' = (transactions w ++ [t])%list).

(** In journal [j], an entry of type [ty] about book [id] was committed
    before the deletion of that book. *)
Definition loggedBeforeDeletion (j : list Write) (ty : TransactionType) (id : string) : Prop :=
  ∃ j1 t j2, j = (j1 ++ TransactionAdded t :: j2)%list
    ∧ tx_type (t_data t) = ty ∧ tx_bookId (t_data t) = id
    ∧ BookDeleted id ∈ j2.

(** The console line [logTransaction] leaves when its append fails. *)
Definition logWarning : string := "Error logging transaction:".

(** Two worlds reached from [w0] by the same handler, the first in an
    environment whose backend refuses appends to [transactions], the second
    in one that accepts them: they agree on everything but the log, the
    first has appended nothing, and whenever the second has appended
    something the first has the warning on its console. *)
Definition agree (w0 ko ok : World) : Prop :=
  books ko = books ok ∧ users ko = users ok ∧ toasts ko = toasts ok
  ∧ transactions ko = transactions w0
  ∧ (transactions ok = transactions w0 ∨ logWarning ∈ console ko).

(** Two computations that take agreeing worlds to agreeing worlds and
    complete the same way. *)
Definition sim (w0 : World) {A} (m_ko m_ok : M A) : Prop :=
  ∀ ko ok, agree w0 ko ok →
    (m_ko ko).1 = (m_ok ok).1 ∧ agree w0 (m_ko ko).2 (m_ok ok).2.

(** ** Calendar days *)

Section Days.
Implicit Types t k : Z.
Implicit Types tz : TimeZone.

Lemma msPerDay_pos : 0 < msPerDay.
Proof. reflexivity. Qed.

(** A whole number of days has that number as ceiling. *)
Lemma ceilDays_whole k : ceilDays (k * msPerDay) = k.
Proof.
  unfold ceilDays. rewrite <- Z.mul_opp_l, Z.div_mul; [lia|].
  pose proof msPerDay_pos; lia.
Qed.

(** In a zone whose offsets lie less than a day apart, local midnights
    are ordered the way their days are. *)
Lemma startOfDay_lt tz a b :
  (∀ x y, offsetOfLocal tz x - offsetOfLocal tz y < msPerDay) →
  dateLt (startOfDay tz (Some a)) (startOfDay tz (Some b)) = true
  ↔ localDay tz a < localDay tz b.
Proof.
  intros Hoff. simpl. rewrite Z.ltb_lt. unfold utcTime.
  pose proof msPerDay_pos as Hp.
  pose proof (Hoff (localDay tz a * msPerDay) (localDay tz b * msPerDay)) as H1.
  pose proof (Hoff (localDay tz b * msPerDay) (localDay tz a * msPerDay)) as H2.
  destruct (Z.lt_trichotomy (localDay tz a) (localDay tz b)) as [Hlt|[Heq|Hgt]].
  - split; [done|]. intros _. nia.
  - rewrite Heq. lia.
  - split; [|lia]. intros Hlt. nia.
Qed.

(** The day difference of two local midnights is the difference of the
    day numbers, when the offset of the first is that of the second or
    ahead of it by less than a day. *)
Lemma diffDays_startOfDay tz a b :
  0 <= offsetOfLocal tz (localDay tz a * msPerDay)
       - offsetOfLocal tz (localDay tz b * msPerDay) < msPerDay →
  diffDays (startOfDay tz (Some a)) (startOfDay tz (Some b))
  = Some (localDay tz a - localDay tz b).
Proof.
  intros Hoff. simpl. f_equal. unfold ceilDays, utcTime.
  set (oa := offsetOfLocal tz (localDay tz a * msPerDay)) in *.
  set (ob := offsetOfLocal tz (localDay tz b * msPerDay)) in *.
  assert (- (localDay tz a * msPerDay - oa - (localDay tz b * msPerDay - ob))
          / msPerDay = localDay tz b - localDay tz a) as ->; [|lia].
  symmetry. apply (Z.div_unique_pos _ _ _ (oa - ob)); lia.
Qed.

(** When the offset is the same at both ends, moving a date by [n] days
    moves its time value by [n] times twenty-four hours. *)
Lemma addDays_same_offset tz t n :
  offsetOfLocal tz (localTime tz t + n * msPerDay) = offsetAt tz t →
  addDays tz (Some t) n = Some (t + n * msPerDay).
Proof.
  intros Hoff. unfold addDays, utcTime. rewrite Hoff. unfold localTime. f_equal. lia.
Qed.

End Days.

(** ** The log helper *)

(** [logTransaction] never throws; it appends the entry when the entry is
    committed, leaves a console line when the append was attempted and
    failed, and does nothing without a store handle. *)
Lemma logTransaction_run env d w :
  logTransaction env d w =
    (Normal (),
     if logged env d then
       with_transaction w {| t_data := d; t_timestamp := serverTime env |}
     else if db env then with_console w logWarning
     else w).
Proof.
  unfold logTransaction, logged, try_catch, addTransaction, console_error.
  destruct (db env); simpl; [|reflexivity].
  destruct (has_undefined d && negb (ignoreUndefinedProperties env)); simpl;
    [reflexivity|].
  destruct (transactionsWriteOk env); reflexivity.
Qed.

(** ** A failing log append changes nothing else *)

Section LogFailure.
Variable w0 : World.

Lemma sim_bind {A B} (m1 m2 : M A) (k1 k2 : A → M B) :
  sim w0 m1 m2 → (∀ a, sim w0 (k1 a) (k2 a)) → sim w0 (m1 ≫= k1) (m2 ≫= k2).
Proof.
  intros Hm Hk ko ok Hag. unfold mbind, M_bind.
  destruct (Hm ko ok Hag) as [Hc Hw].
  destruct (m1 ko) as [c1 w1], (m2 ok) as [c2 w2]; simpl in *; subst c2.
  destruct c1; [by apply Hk | done].
Qed.

Lemma sim_try {A} (m1 m2 : M A) (h1 h2 : string → M A) :
  sim w0 m1 m2 → (∀ e, sim w0 (h1 e) (h2 e)) →
  sim w0 (try_catch m1 h1) (try_catch m2 h2).
Proof.
  intros Hm Hh ko ok Hag. unfold try_catch.
  destruct (Hm ko ok Hag) as [Hc Hw].
  destruct (m1 ko) as [c1 w1], (m2 ok) as [c2 w2]; simpl in *; subst c2.
  destruct c1; [done | by apply Hh].
Qed.

Lemma sim_ret {A} (a : A) : sim w0 (mret a) (mret a).
Proof. by intros ko ok Hag. Qed.

Lemma sim_throw {A} e : sim w0 (@throw A e) (throw e).
Proof. by intros ko ok Hag. Qed.

Lemma sim_toast t b : sim w0 (toast t b) (toast t b).
Proof.
  intros ko ok (Hb & Hu & Ht & Htx & Hc); unfold toast, agree; simpl.
  rewrite Ht. done.
Qed.

Lemma sim_console s : sim w0 (console_error s) (console_error s).
Proof.
  intros ko ok (Hb & Hu & Ht & Htx & Hc); unfold console_error, agree; simpl.
  repeat split; try done. destruct Hc as [Hc|Hc]; [by left | right].
  apply elem_of_app; by left.
Qed.

Lemma sim_toISOString d : sim w0 (toISOString d) (toISOString d).
Proof. destruct d; [apply sim_ret | apply sim_throw]. Qed.

Lemma sim_updateDoc env b1 b2 id patch :
  sim w0 (updateDoc (set_transactionsWriteOk b1 env) id patch)
         (updateDoc (set_transactionsWriteOk b2 env) id patch).
Proof.
  intros ko ok (Hb & Hu & Ht & Htx & Hc); unfold updateDoc, agree; simpl.
  rewrite Hb. destruct (booksWriteOk env); [|done].
  destruct (books ok !! id); simpl; rewrite ?Hb; done.
Qed.

Lemma sim_updateDocData env b1 b2 id data :
  sim w0 (BookManagementTab.updateDocData (set_transactionsWriteOk b1 env) id data)
         (BookManagementTab.updateDocData (set_transactionsWriteOk b2 env) id data).
Proof.
  intros ko ok (Hb & Hu & Ht & Htx & Hc);
    unfold BookManagementTab.updateDocData, agree; simpl.
  rewrite Hb. destruct (booksWriteOk env); [|done].
  destruct (books ok !! id); simpl; rewrite ?Hb; done.
Qed.

Lemma sim_deleteDoc env b1 b2 id :
  sim w0 (deleteDoc (set_transactionsWriteOk b1 env) id)
         (deleteDoc (set_transactionsWriteOk b2 env) id).
Proof.
  intros ko ok (Hb & Hu & Ht & Htx & Hc); unfold deleteDoc, agree; simpl.
  destruct (booksWriteOk env); simpl; rewrite ?Hb; done.
Qed.

Lemma sim_addBook env b1 b2 data :
  sim w0 (addBook (set_transactionsWriteOk b1 env) data)
         (addBook (set_transactionsWriteOk b2 env) data).
Proof.
  intros ko ok (Hb & Hu & Ht & Htx & Hc); unfold addBook, agree; simpl.
  destruct (booksWriteOk env); simpl; rewrite ?Hb; done.
Qed.

Lemma sim_getUser env b1 b2 id :
  sim w0 (getUser (set_transactionsWriteOk b1 env) id)
         (getUser (set_transactionsWriteOk b2 env) id).
Proof.
  intros ko ok (Hb & Hu & Ht & Htx & Hc); unfold getUser, agree; simpl.
  destruct (usersReadOk env); simpl; rewrite ?Hu; done.
Qed.

(** The one step at which the two runs part: the first leaves the
    warning where the second appends the entry. *)
Lemma sim_logTransaction env d :
  sim w0 (logTransaction (set_transactionsWriteOk false env) d)
         (logTransaction (set_transactionsWriteOk true env) d).
Proof.
  intros ko ok (Hb & Hu & Ht & Htx & Hc).
  unfold logTransaction, try_catch, addTransaction, console_error, agree; simpl.
  destruct (db env); simpl; [|done].
  destruct (has_undefined d && negb (ignoreUndefinedProperties env)); simpl.
  - repeat split; try done. destruct Hc as [Hc|Hc]; [by left | right].
    apply elem_of_app; by left.
  - repeat split; try done. right. apply elem_of_app; right.
    by apply list_elem_of_singleton.
Qed.

End LogFailure.

Ltac unfold_handlers :=
  unfold BrowseBooksTab.handleRequestIssue,
    IssuedBooksTab.handleRenewBook, IssuedBooksTab.renew,
    IssuedBooksTab.isBookOverdue,
    IssuedBooksTab.handleRequestReturn,
    DonateBookTab.handleSubmit,
    IssueRequestsTab.handleApproveRequest, IssueRequestsTab.approve,
    IssueRequestsTab.handleRejectRequest,
    ReturnRequestsTab.handleApproveReturn, ReturnRequestsTab.handleRejectReturn,
    DonationApprovalTab.handleApproveDonation,
    DonationApprovalTab.handleRejectDonation,
    BookManagementTab.handleConfirmIssueBook, BookManagementTab.resolveUserName,
    BookManagementTab.handleReturnBook, BookManagementTab.handleSaveBook,
    BookManagementTab.handleDeleteBook.

Ltac sim_step :=
  first
    [ apply sim_bind | apply sim_try | apply sim_ret | apply sim_throw
    | apply sim_toast | apply sim_console | apply sim_toISOString
    | apply sim_updateDoc | apply sim_updateDocData | apply sim_deleteDoc
    | apply sim_addBook | apply sim_getUser | apply sim_logTransaction
    | progress intros
    | case_match ].

(** Every handler, run once with a backend that refuses the log entry and
    once with one that takes it. *)
Lemma sim_handler w0 env a :
  sim w0 (handler (set_transactionsWriteOk false env) a)
         (handler (set_transactionsWriteOk true env) a).
Proof.
  destruct a; simpl; unfold_handlers; simpl; repeat sim_step.
Qed.

(** ** What a handler can do to the store *)

Ltac run_handler :=
  unfold_handlers;
  unfold toISOString, addDays;
  unfold try_catch, mbind, M_bind, mret, M_ret,
    throw, toast, console_error, updateDoc, deleteDoc, addBook, getUser,
    BookManagementTab.updateDocData, exec.

Ltac run_all :=
  run_handler; unfold logTransaction, addTransaction, try_catch, console_error;
  cbn -[foldl fresh applyUpdate].

Lemma logged_intro env d :
  db env = true → transactionsWriteOk env = true → has_undefined d = false →
  logged env d = true.
Proof. unfold logged. by intros -> -> ->. Qed.


(** Every handler writes to [books] first and to the log afterwards, and
    to the log only if the write to [books] was committed. *)
Lemma handler_journal_step env a w : journalStep w (exec (handler env a) w).
Proof.
  unfold journalStep.
  destruct a; simpl; run_all;
    repeat (case_match; simplify_eq; cbn -[foldl fresh applyUpdate]);
    first [ by left
          | right; eexists; split; [|left; split; reflexivity]; exact I
          | right; eexists; split;
            [|right; eexists; rewrite <- !app_assoc; split; reflexivity]; exact I ].
Qed.




(** ** Failure of the primary write, failure of the log *)

(** When the backend refuses the write to [books], a handler leaves the
    books, the log and the journal as they were. *)
Lemma refused_write_changes_nothing env a w :
  let w' := exec (handler (set_booksWriteOk false env) a) w in
  books w' = books w ∧ transactions w' = transactions w ∧ journal w' = journal w.
Proof.
  destruct a; simpl; run_all; repeat (case_match; simplify_eq/=; try done).
Qed.

(** The same holds when the book to update is not in the store. *)
Lemma missing_book_changes_nothing env a w :
  match a with
  | RequestIssue id _ | RequestReturn id _ | RenewBook _ id _ => books w !! id = None
  | ApproveRequest b | RejectRequest b | ApproveReturn b | RejectReturn b
  | ApproveDonation b | ReturnBook b | ConfirmIssueBook (Some b) _ _ =>
      books w !! b_id b = None
  | _ => False
  end →
  let w' := exec (handler env a) w in
  books w' = books w ∧ transactions w' = transactions w ∧ journal w' = journal w.
Proof.
  destruct a; simpl; try done; run_all; intros Hnone;
    repeat (case_match; simplify_eq/=; try done).
Qed.

(** C7. If the write to [books] fails, the books are unchanged and no log
    entry is written; a log entry is only ever written after a committed
    write to [books]; and if the write succeeds while the append to the log
    fails, the handler completes as in the run where both succeed, with
    the same books and the same toasts, nothing appended to the log, and
    the failure of the append only on the console. *)
Theorem primary_failure_atomic_log_failure_swallowed env a w :
  (let w' := exec (handler (set_booksWriteOk false env) a) w in
   books w' = books w ∧ transactions w' = transactions w ∧ journal w' = journal w)
  ∧ journalStep w (exec (handler env a) w)
  ∧ (let ok := handler (set_transactionsWriteOk true env) a w in
     let ko := handler (set_transactionsWriteOk false env) a w in
     ko.1 = ok.1 ∧ books ko.2 = books ok.2 ∧ toasts ko.2 = toasts ok.2
     ∧ transactions ko.2 = transactions w
     ∧ (transactions ok.2 ≠ transactions w → logWarning ∈ console ko.2)).
Proof.
  split; [apply refused_write_changes_nothing|].
  split; [apply handler_journal_step|].
  intros ok ko.
  assert (agree w w w) as Hag by (unfold agree; split_and!; auto).
  destruct (sim_handler w env a w w Hag) as (Hc & Hb & _ & Ht & Htx & Hlog).
  subst ok ko. split_and!; try done. intros Hne. by destruct Hlog.
Qed.

(** The two runs of C7 on a return request that the admin approves: the
    book is available again in both, the log has the [return] entry in one
    and is empty in the other, whose console has the warning. *)
Example log_failure_on_approved_return :
  let d := <["status" := VStr "return_requested"]> (issued_doc 0 (20 * day)) in
  let a := ApproveReturn (snapshot "B1" d) in
  let ok := exec (handler (env_at day) a) (world_with "B1" d) in
  let ko := exec (handler (set_transactionsWriteOk false (env_at day)) a) (world_with "B1" d) in
  stored ok "B1" "status" = Some (VStr "available")
  ∧ stored ko "B1" "status" = Some (VStr "available")
  ∧ map (λ t, tx_type (t_data t)) (transactions ok) = [return_]
  ∧ transactions ko = []
  ∧ console ko = [logWarning]
  ∧ toasts ko = toasts ok
  ∧ map toast_destructive (toasts ko) = [false].
Proof. vm_compute. repeat split. Qed.

(** ** Renewal *)

(** What [handleRenewBook] does to a book that is not overdue: the stored
    due date becomes the time of the server at the commit, while the log
    entry carries the current due date moved by seven calendar days. *)
Lemma renewal_run env u userBooks bookId bookTitle w b d m due :
  currentUser env = Some u → db env = true →
  booksWriteOk env = true → transactionsWriteOk env = true →
  List.find (λ b, String.eqb (b_id b) bookId) userBooks = Some b →
  prop (issueDetails b) "dueDate" = Some (VIso due) →
  IssuedBooksTab.isBookOverdue env b = false →
  books w !! bookId = Some d →
  d !! "issueDetails" = Some (VMap m) →
  let w' := exec (IssuedBooksTab.handleRenewBook env userBooks bookId bookTitle) w in
  storedDueDate w' bookId = Some (VTimestamp (serverTime env))
  ∧ ∃ t, transactions w' = (transactions w ++ [t])%list
         ∧ tx_type (t_data t) = renewal
         ∧ tx_bookId (t_data t) = bookId
         ∧ tx_dueDate (t_data t)
           = Some (utcTime (tz env) (localTime (tz env) due + 7 * msPerDay)).
Proof.
  intros Hu Hdb Hbw Htw Hfind Hdue Hover Hd Hiss w'. subst w'.
  unfold IssuedBooksTab.handleRenewBook.
  rewrite Hu, Hdb, Hfind, Hover, Hdue. simpl.
  unfold IssuedBooksTab.renew. run_handler. rewrite Hbw, Hd. simpl.
  rewrite logTransaction_run, logged_intro; [|done..]. simpl.
  unfold storedDueDate, stored; simpl. rewrite lookup_insert_eq; simpl.
  rewrite lookup_insert_eq, Hiss; simpl. rewrite lookup_insert_eq.
  split; [done|]. eexists; split; [reflexivity|]. done.
Qed.

(** C1. The renewal of book [B1], issued to Alice and due on day 20, on
    day 18: the book is not overdue and the renewal goes through; the log
    entry carries day 27 as new due date, but the stored due date is the
    instant of the renewal, which is neither day 27 nor later than the
    due date the book had. *)
Theorem renewal_stores_commit_time_instead_of_new_due_date :
  let env := env_at (18 * day + 3600000) in
  let d := issued_doc 0 (20 * day) in
  let book := snapshot "B1" d in
  let w' := exec (IssuedBooksTab.handleRenewBook env [book] "B1" "SICP") (world_with "B1" d) in
  IssuedBooksTab.isBookOverdue env book = false
  ∧ map (λ t, (tx_type (t_data t), tx_dueDate (t_data t))) (transactions w')
    = [(renewal, Some (27 * day))]
  ∧ map toast_title (toasts w') = ["Book Renewed"]
  ∧ storedDueDate w' "B1" = Some (VTimestamp (18 * day + 3600000))
  ∧ toDateOrNew (parse env) (storedDueDate w' "B1") ≠ Some (27 * day).
Proof. vm_compute. repeat split. discriminate. Qed.

(** C6. A book that [isBookOverdue] finds overdue is not renewed: the
    handler completes without any write, so the books (and with them the
    stored due date), the log and the journal are what they were, and the
    one thing added is a toast in the destructive variant. *)
Theorem overdue_renewal_is_refused env userBooks bookId bookTitle w b :
  List.find (λ b, String.eqb (b_id b) bookId) userBooks = Some b →
  IssuedBooksTab.isBookOverdue env b = true →
  let r := IssuedBooksTab.handleRenewBook env userBooks bookId bookTitle w in
  r.1 = Normal ()
  ∧ books r.2 = books w ∧ transactions r.2 = transactions w ∧ journal r.2 = journal w
  ∧ ∃ t, toasts r.2 = (toasts w ++ [t])%list ∧ toast_destructive t = true.
Proof.
  intros Hfind Hover r. subst r. unfold IssuedBooksTab.handleRenewBook.
  rewrite Hfind, Hover.
  assert (truthy (prop (issueDetails b) "dueDate") = true) as ->.
  { unfold IssuedBooksTab.isBookOverdue in Hover.
    destruct (truthy (prop (issueDetails b) "dueDate")); [done|].
    by rewrite andb_false_r in Hover. }
  destruct (currentUser env), (db env); unfold toast; simpl; eauto 10.
Qed.

Lemma overdue_renewal_is_refused_witness :
  let env := env_at (21 * day + 3600000) in
  let d := issued_doc 0 (20 * day) in
  let r := IssuedBooksTab.handleRenewBook env [snapshot "B1" d] "B1" "SICP"
             (world_with "B1" d) in
  r.1 = Normal ()
  ∧ books r.2 = books (world_with "B1" d) ∧ transactions r.2 = [] ∧ journal r.2 = []
  ∧ ∃ t, toasts r.2 = [t] ∧ toast_destructive t = true.
Proof.
  exact (overdue_renewal_is_refused (env_at (21 * day + 3600000))
           [snapshot "B1" (issued_doc 0 (20 * day))] "B1" "SICP"
           (world_with "B1" (issued_doc 0 (20 * day)))
           (snapshot "B1" (issued_doc 0 (20 * day))) eq_refl eq_refl).
Defined.


(** ** Approval and rejection of an issue request *)

(** C2, as stated, fails. The approval counts the fourteen days from the
    time of the request ([issueDetails.issueDate]), not from the time of
    the approval: a request made at time 0 and approved two days later is
    due on day 14, and not on day 16. *)
Lemma approval_due_date_is_not_from_approval_time :
  let env := env_at (2 * day) in
  let d := requested_doc 0 in
  let w' := exec (IssueRequestsTab.handleApproveRequest env (snapshot "B1" d))
              (world_with "B1" d) in
  stored w' "B1" "status" = Some (VStr "issued")
  ∧ storedDueDate w' "B1" = Some (VIso (14 * day))
  ∧ storedDueDate w' "B1" ≠ Some (VIso (now env + 14 * day))
  ∧ storedDueDate w' "B1" ≠ Some (VIso (serverTime env + 14 * day)).
Proof. vm_compute. repeat split; discriminate. Qed.

(** C2, amended. Approving a requested book makes its status [issued],
    sets the due date inside its issue details to the instant that the
    local clock shows fourteen calendar days after the issue date that the
    request recorded, at the same time of day (fourteen times twenty-four
    hours after that issue date when the zone has the same offset at both
    ends), keeps the other entries of the issue details, and appends one
    [issue] entry with that due date. *)
Theorem approval_due_date_is_request_time_plus_14_days
    env w id d m requested title uid uname :
  db env = true → booksWriteOk env = true → transactionsWriteOk env = true →
  books w !! id = Some d →
  d !! "status" = Some (VStr "issue_requested") →
  d !! "issueDetails" = Some (VMap m) →
  m !! "issueDate" = Some (VTimestamp requested) →
  d !! "title" = Some title → m !! "userId" = Some uid → m !! "userName" = Some uname →
  let w' := exec (IssueRequestsTab.handleApproveRequest env (snapshot id d)) w in
  let due := utcTime (tz env) (localTime (tz env) requested + 14 * msPerDay) in
  stored w' id "status" = Some (VStr "issued")
  ∧ stored w' id "issueDetails" = Some (VMap (<["dueDate" := VIso due]> m))
  ∧ storedDueDate w' id = Some (VIso due)
  ∧ (offsetOfLocal (tz env) (localTime (tz env) requested + 14 * msPerDay)
     = offsetAt (tz env) requested →
     due = requested + 14 * msPerDay)
  ∧ ∃ t, transactions w' = (transactions w ++ [t])%list
         ∧ tx_type (t_data t) = issue
         ∧ tx_bookId (t_data t) = id
         ∧ tx_dueDate (t_data t) = Some due.
Proof.
  intros Hdb Hbw Htw Hd Hst Hiss Hdate Htitle Huid Huname w' due. subst w'.
  unfold IssueRequestsTab.handleApproveRequest, field; simpl.
  rewrite Hdb, Hiss; simpl. rewrite Hdate.
  unfold IssueRequestsTab.approve, field. run_handler. simpl.
  rewrite Hbw, Hd; simpl.
  rewrite logTransaction_run, logged_intro; [|done|done|]; simpl.
  2:{ unfold has_undefined; simpl. by rewrite Htitle, Hiss; simpl; rewrite Huid, Huname. }
  unfold storedDueDate, stored; simpl. rewrite lookup_insert_eq; simpl.
  repeat first [ rewrite lookup_insert_eq | rewrite lookup_insert_ne by done
               | rewrite Hiss | progress simpl ].
  split_and!; try done.
  - intros Hoff. subst due. unfold utcTime. rewrite Hoff. unfold localTime. lia.
  - eexists; split; [reflexivity|]. done.
Qed.

(** A request made in New York on the fifth of March 2024 at 12:00 UTC
    (07:00 on the local clock) and approved two days later: the book is
    due on the nineteenth at 07:00 on the local clock, which daylight
    saving has by then moved to 11:00 UTC, an hour short of fourteen times
    twenty-four hours. *)
Lemma approval_due_date_is_request_time_plus_14_days_witness :
  let requested := 19787 * day + 12 * hour in
  let env := env_in_newYork (19789 * day + 15 * hour) in
  let d := requested_doc requested in
  let w' := exec (IssueRequestsTab.handleApproveRequest env (snapshot "B1" d))
              (world_with "B1" d) in
  let due := 19801 * day + 11 * hour in
  due = requested + 14 * msPerDay - hour
  ∧ stored w' "B1" "status" = Some (VStr "issued")
  ∧ stored w' "B1" "issueDetails"
    = Some (VMap (<["dueDate" := VIso due]>
                    {[ "userId" := VStr "u1"; "userName" := VStr "Alice";
                       "issueDate" := VTimestamp requested; "dueDate" := VNull ]}))
  ∧ storedDueDate w' "B1" = Some (VIso due)
  ∧ (offsetOfLocal newYork2024 (localTime newYork2024 requested + 14 * msPerDay)
     = offsetAt newYork2024 requested →
     due = requested + 14 * msPerDay)
  ∧ ∃ t, transactions w' = ([] ++ [t])%list
         ∧ tx_type (t_data t) = issue
         ∧ tx_bookId (t_data t) = "B1"
         ∧ tx_dueDate (t_data t) = Some due.
Proof.
  split; [reflexivity|].
  exact (approval_due_date_is_request_time_plus_14_days
           (env_in_newYork (19789 * day + 15 * hour))
           (world_with "B1" (requested_doc (19787 * day + 12 * hour))) "B1"
           (requested_doc (19787 * day + 12 * hour))
           {[ "userId" := VStr "u1"; "userName" := VStr "Alice";
              "issueDate" := VTimestamp (19787 * day + 12 * hour); "dueDate" := VNull ]}
           (19787 * day + 12 * hour) (VStr "SICP") (VStr "u1") (VStr "Alice")
           eq_refl eq_refl eq_refl eq_refl eq_refl eq_refl eq_refl eq_refl eq_refl eq_refl).
Defined.

Lemma books_log (c c' : bool) w t s :
  books (if c then with_transaction w t else if c' then with_console w s else w)
  = books w.
Proof. by destruct c, c'. Qed.

(** Rejecting an issue request writes [null] into [issueDetails]. *)
Lemma reject_request_nulls_issue_details env w b d :
  db env = true → booksWriteOk env = true →
  truthy (issueDetails b) = true →
  books w !! b_id b = Some d →
  let w' := exec (IssueRequestsTab.handleRejectRequest env b) w in
  stored w' (b_id b) "status" = Some (VStr "available")
  ∧ stored w' (b_id b) "issueDetails" = Some VNull.
Proof.
  intros Hdb Hbw Hiss Hd w'. subst w'.
  unfold IssueRequestsTab.handleRejectRequest. rewrite Hdb, Hiss; simpl.
  run_handler. rewrite Hbw, Hd; simpl. rewrite logTransaction_run.
  unfold stored; simpl. rewrite books_log; simpl.
  rewrite lookup_insert_eq; simpl.
  rewrite lookup_insert_eq, lookup_insert_ne, lookup_insert_eq by done. done.
Qed.

(** Approving a return, and marking a book returned from the catalogue,
    remove the field. *)
Lemma approve_return_removes_issue_details env w b d :
  db env = true → booksWriteOk env = true →
  truthy (issueDetails b) = true →
  books w !! b_id b = Some d →
  let w' := exec (ReturnRequestsTab.handleApproveReturn env b) w in
  stored w' (b_id b) "status" = Some (VStr "available")
  ∧ stored w' (b_id b) "issueDetails" = None.
Proof.
  intros Hdb Hbw Hiss Hd w'. subst w'.
  unfold ReturnRequestsTab.handleApproveReturn. rewrite Hdb, Hiss; simpl.
  run_handler. rewrite Hbw, Hd; simpl. rewrite logTransaction_run.
  unfold stored; simpl. rewrite books_log; simpl.
  rewrite lookup_insert_eq; simpl.
  rewrite lookup_delete_eq, lookup_delete_ne, lookup_insert_eq by done. done.
Qed.

Lemma return_book_removes_issue_details env w b d :
  db env = true → booksWriteOk env = true →
  books w !! b_id b = Some d →
  let w' := exec (BookManagementTab.handleReturnBook env b) w in
  stored w' (b_id b) "status" = Some (VStr "available")
  ∧ stored w' (b_id b) "issueDetails" = None.
Proof.
  intros Hdb Hbw Hd w'. subst w'.
  unfold BookManagementTab.handleReturnBook. rewrite Hdb; simpl.
  run_handler. rewrite Hbw, Hd; simpl. rewrite logTransaction_run.
  unfold stored; simpl. rewrite books_log; simpl.
  rewrite lookup_insert_eq; simpl.
  rewrite lookup_delete_eq, lookup_delete_ne, lookup_insert_eq by done. done.
Qed.

(** C5. Book [B1] in three situations: requested and rejected by the
    admin, return requested and approved by the admin, issued and marked
    returned by the admin. All three leave the book [available]; the last
    two remove [issueDetails], the first leaves the field in the record
    with the value [null]. *)
Theorem rejected_request_keeps_issue_details_as_null :
  let env := env_at (2 * day) in
  let requested := requested_doc 0 in
  let issued := issued_doc 0 (14 * day) in
  let returning := <["status" := VStr "return_requested"]> issued in
  let w1 := exec (IssueRequestsTab.handleRejectRequest env (snapshot "B1" requested))
              (world_with "B1" requested) in
  let w2 := exec (ReturnRequestsTab.handleApproveReturn env (snapshot "B1" returning))
              (world_with "B1" returning) in
  let w3 := exec (BookManagementTab.handleReturnBook env (snapshot "B1" issued))
              (world_with "B1" issued) in
  stored w1 "B1" "status" = Some (VStr "available")
  ∧ stored w2 "B1" "status" = Some (VStr "available")
  ∧ stored w3 "B1" "status" = Some (VStr "available")
  ∧ stored w2 "B1" "issueDetails" = None
  ∧ stored w3 "B1" "issueDetails" = None
  ∧ stored w1 "B1" "issueDetails" = Some VNull
  ∧ stored w1 "B1" "issueDetails" ≠ None.
Proof. vm_compute. repeat split; discriminate. Qed.


(** ** Overdue and due soon *)

(** The three classes at the boundaries the specification names. *)
Lemma classifyByDay_boundaries tz due now :
  (localDay tz due = localDay tz now + 3 → classifyByDay tz due now = c_due_soon)
  ∧ (localDay tz due = localDay tz now + 4 → classifyByDay tz due now = c_issued)
  ∧ (localDay tz due = localDay tz now - 1 → classifyByDay tz due now = c_overdue).
Proof.
  unfold classifyByDay. split_and!; intros ->;
    repeat case_match; try done;
    repeat match goal with
           | H : (_ <? _) = _ |- _ => first [apply Z.ltb_lt in H | apply Z.ltb_ge in H]
           | H : (_ <=? _) = _ |- _ => first [apply Z.leb_le in H | apply Z.leb_gt in H]
           end; lia.
Qed.

(** In the tab of issued books the classification is by calendar day.
    [isBookOverdue] holds exactly for the books whose due day lies before
    today, in every zone whose offsets lie less than a day apart. The
    [overdue] filter holds for the same books, and the [due_soon] filter
    exactly for the books due today or within the next three days, when
    the offset of the due day is that of today or ahead of it by less
    than a day. *)
Lemma issued_tab_classifies_by_day env b due :
  is_str (status b) "issued" = true →
  truthy (prop (issueDetails b) "dueDate") = true →
  toDateOrNew (parse env) (prop (issueDetails b) "dueDate") = Some due →
  ((∀ x y, offsetOfLocal (tz env) x - offsetOfLocal (tz env) y < msPerDay) →
   (IssuedBooksTab.isBookOverdue env b = true
      ↔ classifyByDay (tz env) due (now env) = c_overdue))
  ∧ (0 <= offsetOfLocal (tz env) (localDay (tz env) due * msPerDay)
          - offsetOfLocal (tz env) (localDay (tz env) (now env) * msPerDay)
        < msPerDay →
     (IssuedBooksTab.filterBook env true IssuedBooksTab.f_overdue b = true
        ↔ classifyByDay (tz env) due (now env) = c_overdue)
     ∧ (IssuedBooksTab.filterBook env true IssuedBooksTab.f_due_soon b = true
        ↔ classifyByDay (tz env) due (now env) = c_due_soon)).
Proof.
  intros Hst Htruthy Hdue.
  unfold IssuedBooksTab.isBookOverdue, IssuedBooksTab.filterBook.
  rewrite Hst, Htruthy, Hdue. cbn [negb andb].
  split; intros Hoff.
  - rewrite (startOfDay_lt _ _ _ Hoff). unfold classifyByDay.
    destruct (Z.ltb_spec (localDay (tz env) due) (localDay (tz env) (now env)));
      [done|].
    destruct (_ <=? _); split; intros; try done; lia.
  - rewrite (diffDays_startOfDay _ _ _ Hoff).
    unfold classifyByDay; simpl;
    destruct (localDay (tz env) due <? localDay (tz env) (now env)) eqn:Hlt;
    destruct (localDay (tz env) due - localDay (tz env) (now env) <=? 3) eqn:Hle;
    destruct (localDay (tz env) due - localDay (tz env) (now env) <? 0) eqn:Hneg;
    destruct (0 <=? localDay (tz env) due - localDay (tz env) (now env)) eqn:Hpos;
    repeat match goal with
           | H : (_ <? _) = _ |- _ => first [apply Z.ltb_lt in H | apply Z.ltb_ge in H]
           | H : (_ <=? _) = _ |- _ => first [apply Z.leb_le in H | apply Z.leb_gt in H]
           end; simpl; split_and!; split; intros; try done; try lia.
Qed.

(** C3. Book [B1] is issued. Looked at on day 21 at 01:00 when it was
    due on day 20 at 23:00, it is overdue by calendar day, and so say
    [isBookOverdue] and the filter of the tab; the status pill, which
    compares the instants and rounds up, shows it as due soon. Looked at
    on day 21 at 01:00 when it is due on day 24 at 23:00, three calendar
    days ahead, it is due soon for the filter of the tab and merely issued
    for the pill. *)
Theorem status_pill_does_not_classify_by_calendar_day :
  let hour := 3600000 in
  let env := env_at (21 * day + hour) in
  let late := snapshot "B1" (issued_doc 0 (20 * day + 23 * hour)) in
  let soon := snapshot "B1" (issued_doc 0 (24 * day + 23 * hour)) in
  classifyByDay (tz env) (20 * day + 23 * hour) (now env) = c_overdue
  ∧ IssuedBooksTab.isBookOverdue env late = true
  ∧ IssuedBooksTab.filterBook env true IssuedBooksTab.f_overdue late = true
  ∧ StatusPill.getStatusVariant env late = Some (VStr "due_soon")
  ∧ classifyByDay (tz env) (24 * day + 23 * hour) (now env) = c_due_soon
  ∧ IssuedBooksTab.filterBook env true IssuedBooksTab.f_due_soon soon = true
  ∧ StatusPill.getStatusVariant env soon = Some (VStr "issued").
Proof. vm_compute. repeat split. Qed.

(** ** Donations *)

(** C4, as stated, fails. The rejection of donation [D1]: the deletion is
    the first entry of the journal and the log entry the second, so the
    entry was not written before the deletion; and when the backend
    refuses the deletion, the handler gives up before it reaches the log. *)
Lemma donation_rejection_is_logged_after_deletion :
  let env := env_at day in
  let book := snapshot "D1" pending_doc in
  let w' := exec (DonationApprovalTab.handleRejectDonation env book)
              (world_with "D1" pending_doc) in
  let w'' := exec (DonationApprovalTab.handleRejectDonation
                     (set_booksWriteOk false env) book)
               (world_with "D1" pending_doc) in
  (∃ t, journal w' = [BookDeleted "D1"; TransactionAdded t]
        ∧ tx_type (t_data t) = donate_reject)
  ∧ ¬ loggedBeforeDeletion (journal w') donate_reject "D1"
  ∧ transactions w'' = [].
Proof.
  split_and!.
  - eexists. split; vm_compute; reflexivity.
  - intros (j1 & t & j2 & Hj & _ & _ & Hin). vm_compute in Hj.
    destruct j1 as [|e1 [|e2 [|e3 j1]]]; simplify_eq/=. by apply elem_of_nil in Hin.
  - vm_compute. reflexivity.
Qed.

(** C4, amended. Rejecting a donation deletes the record and then appends
    one [donate_reject] entry that carries the identifier of the deleted
    book: in the journal the deletion comes first and the entry second. *)
Theorem donation_rejection_deletes_then_logs env w book title :
  db env = true → booksWriteOk env = true → transactionsWriteOk env = true →
  field book "title" = Some title →
  let w' := exec (DonationApprovalTab.handleRejectDonation env book) w in
  books w' = delete (b_id book) (books w)
  ∧ books w' !! b_id book = None
  ∧ ∃ t, transactions w' = (transactions w ++ [t])%list
         ∧ journal w' = (journal w ++ [BookDeleted (b_id book); TransactionAdded t])%list
         ∧ tx_type (t_data t) = donate_reject
         ∧ tx_bookId (t_data t) = b_id book.
Proof.
  intros Hdb Hbw Htw Htitle w'. subst w'.
  unfold DonationApprovalTab.handleRejectDonation. rewrite Hdb; simpl.
  run_handler. rewrite Hbw; simpl.
  rewrite logTransaction_run, logged_intro; [|done|done|]; simpl.
  2:{ unfold has_undefined; simpl. by rewrite Htitle. }
  split_and!; [done | apply lookup_delete_eq |].
  eexists; split_and!; [reflexivity | by rewrite <- app_assoc | done | done].
Qed.

Lemma donation_rejection_deletes_then_logs_witness :
  let w := world_with "D1" pending_doc in
  let w' := exec (DonationApprovalTab.handleRejectDonation (env_at day)
                    (snapshot "D1" pending_doc)) w in
  books w' = delete "D1" (books w)
  ∧ books w' !! "D1" = None
  ∧ ∃ t, transactions w' = ([] ++ [t])%list
         ∧ journal w' = ([] ++ [BookDeleted "D1"; TransactionAdded t])%list
         ∧ tx_type (t_data t) = donate_reject
         ∧ tx_bookId (t_data t) = "D1".
Proof.
  exact (donation_rejection_deletes_then_logs (env_at day)
           (world_with "D1" pending_doc) (snapshot "D1" pending_doc) (VStr "TAPL")
           eq_refl eq_refl eq_refl eq_refl).
Defined.

(** The approval of a donation touches the status of that one book and
    nothing else in the collection, whatever the backend answers. *)
Lemma donation_approval_frame env w book id d d' :
  let w' := exec (DonationApprovalTab.handleApproveDonation env book) w in
  books w !! id = Some d →
  books w' !! id = Some d' →
  (∀ k, k ≠ "status" → d' !! k = d !! k) ∧ (id ≠ b_id book → d' = d).
Proof.
  intros w' Hd Hd'. subst w'. revert Hd'.
  unfold DonationApprovalTab.handleApproveDonation. run_handler.
  destruct (db env); simpl; [|intros; simplify_eq; done].
  destruct (booksWriteOk env); simpl; [|intros; simplify_eq; done].
  destruct (books w !! b_id book) as [d0|] eqn:Hd0; simpl;
    [|intros; simplify_eq; done].
  rewrite logTransaction_run; simpl. rewrite books_log; simpl.
  destruct (decide (id = b_id book)) as [->|Hne].
  - rewrite lookup_insert_eq. intros; simplify_eq. split; [|done].
    intros k Hk. by rewrite lookup_insert_ne.
  - rewrite lookup_insert_ne by done. intros; simplify_eq. done.
Qed.





(** ** Rejection of a return request *)

(** C8. Rejecting the return request of a book that is in the store with
    status [return_requested] and with issue details makes its status
    [issued], leaves its issue details (holder, issue date, due date) and
    every other field of it as they were, leaves the other books alone,
    and appends one [return_reject] entry. *)
Theorem reject_return_keeps_issue_details env w id d m title uid uname :
  db env = true → booksWriteOk env = true → transactionsWriteOk env = true →
  books w !! id = Some d →
  d !! "status" = Some (VStr "return_requested") →
  d !! "issueDetails" = Some (VMap m) →
  d !! "title" = Some title → m !! "userId" = Some uid → m !! "userName" = Some uname →
  let w' := exec (ReturnRequestsTab.handleRejectReturn env (snapshot id d)) w in
  stored w' id "status" = Some (VStr "issued")
  ∧ stored w' id "issueDetails" = Some (VMap m)
  ∧ (∀ k, k ≠ "status" → stored w' id k = d !! k)
  ∧ (∀ id', id' ≠ id → books w' !! id' = books w !! id')
  ∧ transactions w' =
      (transactions w ++ [{| t_data := returnRejectEntry (snapshot id d);
                            t_timestamp := serverTime env |}])%list.
Proof.
  intros Hdb Hbw Htw Hd Hst Hiss Htitle Huid Huname w'.
  assert (w' = with_toast
            (with_transaction
               (with_books w (<[id := <["status" := VStr "issued"]> d]> (books w))
                           (BookUpdated id))
               {| t_data := returnRejectEntry (snapshot id d);
                  t_timestamp := serverTime env |})
            {| toast_title := "Return Rejected"; toast_destructive := false |}) as ->.
  { subst w'. run_handler. unfold field; simpl. rewrite Hdb, Hiss; simpl.
    rewrite Hbw; simpl. rewrite Hd; simpl.
    rewrite logTransaction_run, logged_intro; [|done|done|].
    - unfold returnRejectEntry, field; simpl. by rewrite Hiss.
    - unfold has_undefined; simpl. by rewrite Htitle, Huid, Huname. }
  unfold stored; simpl. rewrite lookup_insert_eq; simpl.
  split_and!; [by rewrite lookup_insert_eq| by rewrite lookup_insert_ne | | | done].
  - intros k Hk. by rewrite lookup_insert_ne.
  - intros id' Hne. by rewrite lookup_insert_ne.
Qed.

Lemma reject_return_keeps_issue_details_witness :
  let d := <["status" := VStr "return_requested"]> (issued_doc 0 (14 * day)) in
  let w := world_with "B1" d in
  let w' := exec (ReturnRequestsTab.handleRejectReturn (env_at day) (snapshot "B1" d)) w in
  stored w' "B1" "status" = Some (VStr "issued")
  ∧ stored w' "B1" "issueDetails"
    = Some (VMap {[ "userId" := VStr "u1"; "userName" := VStr "Alice";
                    "issueDate" := VTimestamp 0; "dueDate" := VIso (14 * day) ]})
  ∧ (∀ k, k ≠ "status" → stored w' "B1" k = d !! k)
  ∧ (∀ id', id' ≠ "B1" → books w' !! id' = books w !! id')
  ∧ transactions w' =
      ([] ++ [{| t_data := returnRejectEntry (snapshot "B1" d);
                 t_timestamp := serverTime (env_at day) |}])%list.
Proof.
  exact (reject_return_keeps_issue_details (env_at day)
           (world_with "B1" (<["status" := VStr "return_requested"]> (issued_doc 0 (14 * day))))
           "B1" (<["status" := VStr "return_requested"]> (issued_doc 0 (14 * day)))
           {[ "userId" := VStr "u1"; "userName" := VStr "Alice";
              "issueDate" := VTimestamp 0; "dueDate" := VIso (14 * day) ]}
           (VStr "SICP") (VStr "u1") (VStr "Alice")
           eq_refl eq_refl eq_refl eq_refl eq_refl eq_refl eq_refl eq_refl eq_refl).
Defined.

(** ** Request of an issue *)

(** C10. [handleRequestIssue] does not read the book before it writes:
    whatever record [d] the store holds under the identifier, whatever its
    status, the handler sets the status to [issue_requested], replaces the
    issue details by the requesting user, the time of the request and a
    [null] due date, and appends one [issue_request] entry. The check of
    the status is the [disabled] attribute of the button and plays no part
    in the handler. *)
Theorem request_issue_ignores_status env u bookId bookTitle w d :
  currentUser env = Some u → db env = true →
  booksWriteOk env = true → transactionsWriteOk env = true →
  books w !! bookId = Some d →
  let w' := exec (BrowseBooksTab.handleRequestIssue env bookId bookTitle) w in
  books w' = <[bookId := <["issueDetails" := VMap (requestDetails env u)]>
                           (<["status" := VStr "issue_requested"]> d)]> (books w)
  ∧ stored w' bookId "status" = Some (VStr "issue_requested")
  ∧ stored w' bookId "issueDetails" = Some (VMap (requestDetails env u))
  ∧ transactions w' =
      (transactions w ++ [{| t_data := issueRequestEntry u bookId bookTitle;
                            t_timestamp := serverTime env |}])%list.
Proof.
  intros Hu Hdb Hbw Htw Hd w'.
  assert (books w' = <[bookId := <["issueDetails" := VMap (requestDetails env u)]>
                           (<["status" := VStr "issue_requested"]> d)]> (books w)
          ∧ transactions w' =
             (transactions w ++ [{| t_data := issueRequestEntry u bookId bookTitle;
                                   t_timestamp := serverTime env |}])%list)
    as [Hbooks Htx].
  { subst w'. run_handler.
    rewrite Hu, Hdb; simpl. rewrite Hbw, Hd; simpl.
    rewrite logTransaction_run, logged_intro; [|done..]. simpl.
    split; [|done]. do 3 f_equal. }
  unfold stored. rewrite Hbooks, lookup_insert_eq; simpl.
  split_and!; [done | | by rewrite lookup_insert_eq | done].
  by rewrite lookup_insert_ne, lookup_insert_eq.
Qed.

(** The request of Alice for a book that is issued, whose button the tab
    shows disabled: the handler, once called, takes the book over. *)
Lemma request_issue_ignores_status_witness :
  let env := env_at (5 * day) in
  let d := <["issueDetails" := VMap {[ "userId" := VStr "u2"; "userName" := VStr "Bob";
                                      "issueDate" := VTimestamp 0;
                                      "dueDate" := VIso (14 * day) ]}]>
             (issued_doc 0 (14 * day)) in
  let w := world_with "B1" d in
  let w' := exec (BrowseBooksTab.handleRequestIssue env "B1" "SICP") w in
  BrowseBooksTab.requestDisabled env (snapshot "B1" d) = true
  ∧ stored w "B1" "status" = Some (VStr "issued")
  ∧ stored w' "B1" "status" = Some (VStr "issue_requested")
  ∧ stored w' "B1" "issueDetails" = Some (VMap (requestDetails env alice)).
Proof.
  split; [reflexivity|]. split; [reflexivity|].
  pose proof (request_issue_ignores_status (env_at (5 * day)) alice "B1" "SICP"
                (world_with "B1"
                   (<["issueDetails" := VMap {[ "userId" := VStr "u2"; "userName" := VStr "Bob";
                                                "issueDate" := VTimestamp 0;
                                                "dueDate" := VIso (14 * day) ]}]>
                      (issued_doc 0 (14 * day))))
                (<["issueDetails" := VMap {[ "userId" := VStr "u2"; "userName" := VStr "Bob";
                                             "issueDate" := VTimestamp 0;
                                             "dueDate" := VIso (14 * day) ]}]>
                   (issued_doc 0 (14 * day)))
                eq_refl eq_refl eq_refl eq_refl eq_refl) as (_ & Hst & Hiss & _).
  exact (conj Hst Hiss).
Defined.
